(** * ChatbotService (TenderGuard/services/chatbot_service.py)

    A shallow embedding of the ACTMS chatbot service: the FAQ store, the
    keyword matcher, the OpenAI adapter and the top-level [get_response],
    followed by the properties of the resolution policy.

    Modelling conventions.
    - A Python [str] is a [string] whose characters are read as the code
      points 0..255 (Latin-1); [lower], [strip] and [split] follow the
      behaviour of [str.lower], [str.strip] and [str.split] on that range.
    - A Python [float] that the service computes is a rational [Q].  The
      only float operations of the service are the quotient of two small
      naturals, the product with an entry's confidence and the comparisons
      with [0.3] and with the running best score; correctly rounded
      division is monotone and maps 3/10 to the literal [0.3], so the
      comparisons agree with the rational ones as long as a key has fewer
      than 2^26 tokens.
    - The FAQ dictionary is an association list with unique keys in
      insertion order (a Python [dict] iterates in insertion order and an
      assignment to an existing key keeps its position).
    - Logging and exceptions are explicit: a computation takes the log so
      far and returns either a value or a raised exception, with the new
      log.
    - The database service behind [get_conversation_context] is a
      collaborator outside the service: its import and construction and
      each of its four queries are taken as outcomes that may raise. *)

From Stdlib Require Import String Ascii List ZArith QArith Lia Lqa Bool.
From stdpp Require Import base gmap sets list strings.
Import ListNotations.

Local Open Scope string_scope.
Local Open Scope list_scope.

(** ** Python strings *)

Module PyStr.

(** [str.isspace] on a single character of the Latin-1 range: the
    characters U+0009..U+000D, U+001C..U+0020, U+0085 and U+00A0. *)
Definition isspace (c : ascii) : bool :=
  let n := N_of_ascii c in
  ((9 <=? n) && (n <=? 13) || (28 <=? n) && (n <=? 32)
   || (n =? 133) || (n =? 160))%N.

(** [str.lower] on a single character: A..Z and the accented capitals
    U+00C0..U+00DE (without the multiplication sign U+00D7) move up by
    32. *)
Definition lower_char (c : ascii) : ascii :=
  let n := N_of_ascii c in
  if ((65 <=? n) && (n <=? 90)
      || (192 <=? n) && (n <=? 222) && negb (n =? 215))%N
  then ascii_of_N (n + 32) else c.

Fixpoint lower (s : string) : string :=
  match s with
  | EmptyString => EmptyString
  | String c s' => String (lower_char c) (lower s')
  end.

Fixpoint lstrip (s : string) : string :=
  match s with
  | EmptyString => EmptyString
  | String c s' => if isspace c then lstrip s' else s
  end.

Fixpoint rstrip (s : string) : string :=
  match s with
  | EmptyString => EmptyString
  | String c s' =>
      match rstrip s' with
      | EmptyString => if isspace c then EmptyString else String c EmptyString
      | r => String c r
      end
  end.

Definition strip (s : string) : string := rstrip (lstrip s).

(** [str.split()] without argument: the maximal runs of characters that
    are not white space, in order; no empty string is ever produced.
    [cur] is the run being read. *)
Definition flush (cur : string) : list string :=
  match cur with
  | EmptyString => []
  | _ => [cur]
  end.

Fixpoint split_from (cur : string) (s : string) : list string :=
  match s with
  | EmptyString => flush cur
  | String c s' =>
      if isspace c then flush cur ++ split_from EmptyString s'
      else split_from (cur +:+ String c EmptyString) s'
  end.

Definition split (s : string) : list string := split_from EmptyString s.

(** Truth value of a string: non-empty. *)
Definition truthy (s : string) : bool :=
  match s with
  | EmptyString => false
  | _ => true
  end.

End PyStr.

(** ** Exceptions and logging *)

(** A raised exception: its class name and [str(e)]. *)
Record exn := Exn { exn_class : string; exn_str : string }.

Inductive level := INFO | WARNING | ERROR.

Record LogRecord := Log { log_level : level; log_text : string }.

Inductive outcome (A : Type) : Type :=
| Ok (a : A)
| Raise (e : exn).
Arguments Ok {A} a.
Arguments Raise {A} e.

(** A computation of the service: it extends the log and either returns
    or raises. *)
Definition M (A : Type) : Type := list LogRecord -> outcome A * list LogRecord.

Definition ret {A} (a : A) : M A := fun lg => (Ok a, lg).

Definition raise {A} (e : exn) : M A := fun lg => (Raise e, lg).

Definition bind {A B} (c : M A) (k : A -> M B) : M B :=
  fun lg =>
    match c lg with
    | (Ok a, lg') => k a lg'
    | (Raise e, lg') => (Raise e, lg')
    end.

(** [try: body / except Exception as e: handler e]. *)
Definition try_except {A} (body : M A) (handler : exn -> M A) : M A :=
  fun lg =>
    match body lg with
    | (Ok a, lg') => (Ok a, lg')
    | (Raise e, lg') => handler e lg'
    end.

Definition logger (lv : level) (text : string) : M unit :=
  fun lg => (Ok tt, lg ++ [Log lv text]).

Declare Scope py_scope.
Delimit Scope py_scope with py.
Notation "x <- c ;; k" := (bind c (fun x => k))
  (at level 100, c at next level, right associativity) : py_scope.
Notation "c ;;; k" := (bind c (fun _ => k))
  (at level 100, right associativity) : py_scope.

(** ** Values and records of the service *)

(** What a caller may pass where the annotations ask for a [str]. *)
Inductive value :=
| VStr (s : string)
| VInt (z : Z)
| VNone.

Definition type_name (v : value) : string :=
  match v with
  | VStr _ => "str"
  | VInt _ => "int"
  | VNone => "NoneType"
  end.

Definition attribute_error (v : value) (attr : string) : exn :=
  Exn "AttributeError"
      ("'" +:+ type_name v +:+ "' object has no attribute '" +:+ attr +:+ "'").

(** [v.lower()]: only a [str] has the method; the result is a [str]. *)
Definition py_lower (v : value) : M string :=
  match v with
  | VStr s => ret (PyStr.lower s)
  | _ => raise (attribute_error v "lower")
  end.

(** An entry of the FAQ database: [{'answer': .., 'confidence': ..}]. *)
Module FaqData.
Record t := Make { answer : string; confidence : Q }.
End FaqData.

(** A reply of the service: [{'message': .., 'source': .., 'confidence': ..}]. *)
Module Response.
Record t := Make { message : string; source : string; confidence : Q }.

(** Truth value of the dictionary: it has three keys, so it is not
    empty. *)
Definition truthy (r : t) : bool := true.
End Response.

(** ** The dictionary of FAQ entries *)

Module Dict.

Abbreviation t := (list (string * FaqData.t)).

Fixpoint get (k : string) (d : t) : option FaqData.t :=
  match d with
  | [] => None
  | (k', v') :: d' => if decide (k' = k) then Some v' else get k d'
  end.

(** [d[k] = v]: an existing key keeps its position, a new key goes
    last. *)
Fixpoint set (k : string) (v : FaqData.t) (d : t) : t :=
  match d with
  | [] => [(k, v)]
  | (k', v') :: d' =>
      if decide (k' = k) then (k', v) :: d' else (k', v') :: set k v d'
  end.

Definition keys (d : t) : list string := map fst d.

(** The keys of a dictionary are pairwise different. *)
Definition wf (d : t) : Prop := NoDup (keys d).

End Dict.

(** ** The service object *)

(** The handle built by [OpenAI(api_key=..)]. *)
Record OpenAI := { api_key : string }.

Record ChatbotService := {
  openai_api_key : option string;
  client : option OpenAI;
  faq_database : Dict.t
}.

Definition seed_faq_database : Dict.t :=
  [ ("what is actms",
     FaqData.Make "ACTMS (Anti-Corruption Tender Management System) is a comprehensive platform for managing government tenders with AI-powered fraud detection." 1.0);
    ("how to submit bid",
     FaqData.Make "To submit a bid: 1) Select a tender, 2) Enter company information, 3) Provide bid amount and proposal, 4) Upload required documents, 5) Submit for review." 1.0);
    ("what is suspicious bid",
     FaqData.Make "A suspicious bid is one flagged by our AI system for unusual patterns like extremely low amounts, poor proposal quality, or suspicious timing." 1.0);
    ("how does ai detection work",
     FaqData.Make "Our AI uses Isolation Forest algorithm to analyze bid patterns, amounts, proposal quality, and timing to detect potentially fraudulent submissions." 1.0);
    ("what file formats supported",
     FaqData.Make "We support common document formats including PDF, DOC, DOCX, TXT, and XLS files up to 15MB in size." 1.0);
    ("how to view tender status",
     FaqData.Make "You can view tender status through the dashboard or by accessing the tenders API endpoint which shows active, closed, and upcoming tenders." 1.0);
    ("what is audit log",
     FaqData.Make "Audit logs track all system activities including user actions, bid submissions, and security events for compliance and monitoring." 1.0);
    ("how to check system status",
     FaqData.Make "System status can be viewed through the dashboard which shows real-time metrics, alerts, and system health indicators." 1.0) ].

(** [o is not None]; for the client handle this is also its truth
    value. *)
Definition is_not_None {A} (o : option A) : bool :=
  match o with
  | Some _ => true
  | None => false
  end.

(** [option_truthy o]: the truth value of [os.environ.get(..)], which is
    [None] or a string. *)
Definition option_truthy (o : option string) : bool :=
  match o with
  | Some s => PyStr.truthy s
  | None => false
  end.

(** [__init__], from the value of [OPENAI_API_KEY] in the environment
    ([None] when the variable is not set). *)
Definition __init__ (env_key : option string) : ChatbotService :=
  {| openai_api_key := env_key;
     client := match env_key with
               | Some k => if PyStr.truthy k then Some {| api_key := k |} else None
               | None => None
               end;
     faq_database := seed_faq_database |}.

(** ** FAQ matching *)

Definition Qlt_bool (x y : Q) : bool := negb (Qle_bool y x).

(** The body of the loop for one item: the overlap score of the key with
    the message. *)
Definition score (faq_key message : string) : Q :=
  let faq_keywords := PyStr.split faq_key in
  let message_words := PyStr.split message in
  let overlap :=
    size ((list_to_set faq_keywords : gset string) ∩ list_to_set message_words) in
  inject_Z (Z.of_nat overlap)
  / inject_Z (Z.of_nat (Nat.max (length faq_keywords) 1)).

(** One iteration of [for faq_key, faq_data in self.faq_database.items()]
    on the pair [(best_match, best_score)]. *)
Definition faq_step (message : string)
    (st : option FaqData.t * Q) (item : string * FaqData.t)
  : option FaqData.t * Q :=
  let '(best_match, best_score) := st in
  let '(faq_key, faq_data) := item in
  let sc := score faq_key message in
  if Qlt_bool best_score sc && Qlt_bool 0.3 sc
  then (Some faq_data, sc)
  else (best_match, best_score).

Definition faq_loop (db : Dict.t) (message : string) : option FaqData.t * Q :=
  fold_left (faq_step message) db (None, 0%Q).

Definition no_match_response : Response.t :=
  Response.Make
    "I couldn't find an answer to your question in our knowledge base. Please try rephrasing your question or contact support for assistance."
    "no_match" 0.0.

Definition faq_error_response : Response.t :=
  Response.Make
    "I encountered an error while searching for an answer. Please try again or contact support."
    "error" 0.0.

Definition _get_faq_response (self : ChatbotService) (message : string)
  : M Response.t :=
  try_except
    (let '(best_match, best_score) := faq_loop (faq_database self) message in
     match best_match with
     | Some d =>
         ret (Response.Make (FaqData.answer d) "faq"
                            (FaqData.confidence d * best_score))
     | None => ret no_match_response
     end)
    (fun e =>
       (logger ERROR ("FAQ response error: " +:+ exn_str e) ;;;
        ret faq_error_response)%py).

(** ** The OpenAI adapter *)

Record ChatMessage := { role : string; content : value }.

Record Request := {
  model : string;
  messages : list ChatMessage;
  max_tokens : Z;
  temperature : Q
}.

(** The caller's context dictionary. *)
Definition Context := list (string * value).

(** A completion, as far as the service reads it: for each choice,
    [choice.message.content] ([None] or a string). *)
Definition Completion := list (option string).

(** The collaborators outside the service: [json.dumps(.., indent=2)] and
    the remote call [client.chat.completions.create(..)]; both may
    raise. *)
Record External := {
  json_dumps : Context -> outcome string;
  chat_completions_create : OpenAI -> Request -> outcome Completion
}.

Definition lift {A} (o : outcome A) : M A := fun lg => (o, lg).

(** [l.insert(i, x)]: a negative index counts from the end, and the
    position is clamped to the list. *)
Definition py_insert {A} (i : Z) (x : A) (l : list A) : list A :=
  let n := Z.of_nat (length l) in
  let j := if (i <? 0)%Z then Z.max (i + n) 0 else Z.min i n in
  take (Z.to_nat j) l ++ x :: drop (Z.to_nat j) l.

(** [l[i]] for [i >= 0]. *)
Definition py_index {A} (l : list A) (i : nat) : M A :=
  match l !! i with
  | Some x => ret x
  | None => raise (Exn "IndexError" "list index out of range")
  end.

Definition system_prompt : string := "
            You are an AI assistant for ACTMS (Anti-Corruption Tender Management System), 
            a government tender management platform with AI-powered fraud detection.
            
            Key capabilities:
            - Tender management and bid submission
            - AI-powered anomaly detection using Isolation Forest
            - Comprehensive audit logging
            - Secure file handling
            - Real-time alerts for suspicious activities
            
            Provide helpful, accurate information about the system. Be professional and concise.
            If you don't know something specific about the system, acknowledge it and suggest 
            contacting administrators.
            ".

Definition openai_error_response : Response.t :=
  Response.Make
    "I apologize, but I'm currently unable to provide a response. Please try asking a different question or contact support."
    "error" 0.0.

Definition _get_openai_response (ext : External) (self : ChatbotService)
    (message : value) (context : option Context) : M Response.t :=
  try_except
    (let messages0 :=
       [ {| role := "system"; content := VStr system_prompt |};
         {| role := "user"; content := message |} ] in
     messages1 <-
       match context with
       | Some ctx =>
           dumped <- lift (json_dumps ext ctx) ;;
           let context_str := "Additional context: " +:+ dumped in
           ret (py_insert (-1) {| role := "system"; content := VStr context_str |}
                          messages0)
       | None => ret messages0
       end ;;
     cl <-
       match client self with
       | None => raise (Exn "ValueError" "OpenAI client not initialized")
       | Some cl => ret cl
       end ;;
     let formatted_messages :=
       map (fun msg => {| role := role msg; content := content msg |}) messages1 in
     response <-
       lift (chat_completions_create ext cl
               {| model := "gpt-4";
                  messages := formatted_messages;
                  max_tokens := 300;
                  temperature := 0.7 |}) ;;
     choice <- py_index response 0 ;;
     let content :=
       match choice with
       | None => "I apologize, but I couldn't generate a response. Please try again."
       | Some c => c
       end in
     ret (Response.Make (PyStr.strip content) "openai" 0.9))%py
    (fun e =>
       (logger ERROR ("OpenAI API error: " +:+ exn_str e) ;;;
        ret openai_error_response)%py).

(** ** The public operations *)

Definition default_response : Response.t :=
  Response.Make
    "I apologize, but I don't have a specific answer to your question. Please contact system administrators or check the documentation for more detailed assistance."
    "default" 0.3.

Definition technical_difficulties_response : Response.t :=
  Response.Make
    "I'm experiencing technical difficulties. Please try again later or contact support."
    "error" 0.0.

(** The [try] block of [get_response].  The inner [try] yields [Some r]
    when it executes [return openai_response] and [None] when control
    falls through to the FAQ tier. *)
Definition get_response_body (ext : External) (self : ChatbotService)
    (message : value) (context : option Context) : M Response.t :=
  (lowered <- py_lower message ;;
   let clean_message := PyStr.strip lowered in
   returned <-
     (if is_not_None (client self) && option_truthy (openai_api_key self)
      then
        try_except
          (openai_response <- _get_openai_response ext self message context ;;
           if Response.truthy openai_response
           then ret (Some openai_response)
           else ret None)
          (fun e =>
             logger WARNING
               ("OpenAI API error, falling back to FAQ: " +:+ exn_str e) ;;;
             ret None)
      else ret None) ;;
   match returned with
   | Some r => ret r
   | None =>
       faq_response <- _get_faq_response self clean_message ;;
       if Response.truthy faq_response
       then ret faq_response
       else ret default_response
   end)%py.

Definition get_response (ext : External) (self : ChatbotService)
    (message : value) (context : option Context) : M Response.t :=
  try_except
    (get_response_body ext self message context)
    (fun e =>
       (logger ERROR ("Chatbot service error: " +:+ exn_str e) ;;;
        ret technical_difficulties_response)%py).

(** [add_faq_entry] returns the service object after the call. *)
Definition add_faq_entry (self : ChatbotService)
    (question : value) (answer : string) (confidence : Q) : M ChatbotService :=
  try_except
    (lowered <- py_lower question ;;
     let key := PyStr.strip lowered in
     let self' :=
       {| openai_api_key := openai_api_key self;
          client := client self;
          faq_database :=
            Dict.set key (FaqData.Make answer confidence) (faq_database self) |} in
     logger INFO ("FAQ entry added: " +:+ key) ;;;
     ret self')%py
    (fun e =>
       (logger ERROR ("FAQ entry addition error: " +:+ exn_str e) ;;;
        ret self)%py).

Definition is_openai_available (self : ChatbotService) : bool :=
  is_not_None (client self) && is_not_None (openai_api_key self).

(** ** The context helper *)

(** The database service, as far as the helper reads it.  Each query
    returns or raises; [get_recent_alerts] takes its [limit] and returns a
    list. *)
Record DatabaseService := {
  count_tenders : outcome value;
  count_active_bids : outcome value;
  count_suspicious_bids : outcome value;
  get_recent_alerts : Z -> outcome (list value)
}.

(** [database] is the outcome of
    [from services.database_service import DatabaseService] followed by
    [DatabaseService()]. *)
Definition get_conversation_context (database : outcome DatabaseService)
    (self : ChatbotService) (user_id : option string) : M Context :=
  try_except
    (db_service <- lift database ;;
     total_tenders <- lift (count_tenders db_service) ;;
     active_bids <- lift (count_active_bids db_service) ;;
     suspicious_flags <- lift (count_suspicious_bids db_service) ;;
     alerts <- lift (get_recent_alerts db_service 5) ;;
     let context :=
       [ ("total_tenders", total_tenders);
         ("active_bids", active_bids);
         ("suspicious_flags", suspicious_flags);
         ("recent_alerts", VInt (Z.of_nat (length alerts))) ] in
     ret context)%py
    (fun e =>
       (logger ERROR ("Context retrieval error: " +:+ exn_str e) ;;;
        ret [])%py).

(** ** The matcher as the specification words it *)

(** The set of whitespace-delimited tokens of a text. *)
Definition tokens (s : string) : gset string := list_to_set (PyStr.split s).

(** The score with the size of the key's token set as denominator. *)
Definition score_of_set (faq_key message : string) : Q :=
  inject_Z (Z.of_nat (size (tokens faq_key ∩ tokens message)))
  / inject_Z (Z.of_nat (Nat.max (size (tokens faq_key)) 1)).

(** The score with the number of the key's tokens, repetitions counted,
    as denominator. *)
Definition score_of_count (faq_key message : string) : Q :=
  inject_Z (Z.of_nat (size (tokens faq_key ∩ tokens message)))
  / inject_Z (Z.of_nat (Nat.max (length (PyStr.split faq_key)) 1)).

(** [faq_spec sc db message r]: [r] is what the matcher answers for
    [message] on the store [db] when entries are graded by [sc].  Either
    some entry is eligible, and [r] carries the answer of the entry at the
    first position whose score is maximal, or no entry is eligible and [r]
    is the no-match reply. *)
Definition faq_spec (sc : string -> string -> Q) (db : Dict.t)
    (message : string) (r : Response.t) : Prop :=
  (exists (i : nat) (k : string) (d : FaqData.t),
      db !! i = Some (k, d)
      /\ (0.3 < sc k message)%Q
      /\ (forall (j : nat) k' d',
             db !! j = Some (k', d') -> (sc k' message <= sc k message)%Q)
      /\ (forall (j : nat) k' d',
             (j < i)%nat -> db !! j = Some (k', d') ->
             (sc k' message < sc k message)%Q)
      /\ Response.message r = FaqData.answer d
      /\ Response.source r = "faq"
      /\ (Response.confidence r == FaqData.confidence d * sc k message)%Q)
  \/ ((forall (j : nat) k d, db !! j = Some (k, d) -> ~ (0.3 < sc k message)%Q)
      /\ r = no_match_response).

(** The reply of the matcher as a function of the loop's result. *)
Definition faq_reply (db : Dict.t) (message : string) : Response.t :=
  match faq_loop db message with
  | (Some d, best_score) =>
      Response.Make (FaqData.answer d) "faq" (FaqData.confidence d * best_score)
  | (None, _) => no_match_response
  end.

(** ** States reachable through the public operations *)

(** [reachable env_key self]: [self] was built by [__init__] with
    [env_key] in the environment and then went through any number of
    [add_faq_entry] calls ([get_response] and [is_openai_available] leave
    the object as it is). *)
Inductive reachable (env_key : option string) : ChatbotService -> Prop :=
| reach_init : reachable env_key (__init__ env_key)
| reach_add self question answer confidence lg self' lg' :
    reachable env_key self ->
    add_faq_entry self question answer confidence lg = (Ok self', lg') ->
    reachable env_key self'.

(** ** Collaborators used in the examples *)

(** The remote service is unreachable. *)
Definition ext_down : External :=
  {| json_dumps := fun _ => Ok "{}";
     chat_completions_create :=
       fun _ _ => Raise (Exn "APIConnectionError" "Connection error.") |}.

(** The remote service answers with one choice. *)
Definition ext_up : External :=
  {| json_dumps := fun _ => Ok "{}";
     chat_completions_create := fun _ _ => Ok [Some "Hello!"] |}.




(** The answer of the seed entry ['what is actms']. *)
Definition actms_answer : string :=
  "ACTMS (Anti-Corruption Tender Management System) is a comprehensive platform for managing government tenders with AI-powered fraud detection.".

(** ** Tactics *)

Ltac run_monad :=
  unfold try_except, bind, lift, ret, raise, logger, py_index, py_lower;
  cbn beta iota.

(** Case analysis on an innermost scrutinee of the goal. *)
Ltac case_step :=
  match goal with
  | |- context [match ?x with _ => _ end] =>
      lazymatch x with
      | context [match _ with _ => _ end] => fail
      | _ => destruct x; cbn beta iota
      end
  end.

(** ** Evaluation checks *)

Example split_demo :
  PyStr.split "  how to  submit bid " = ["how"; "to"; "submit"; "bid"].
Proof. reflexivity. Qed.

Example lower_strip_demo :
  PyStr.strip (PyStr.lower "  New Question ") = "new question".
Proof. reflexivity. Qed.

Example score_full :
  (score "what is actms" "what is actms" == 1)%Q.
Proof. vm_compute. reflexivity. Qed.

Example threshold_is_three_tenths : (0.3 = 3 # 10)%Q.
Proof. reflexivity. Qed.

(** ** Lemmas on strings *)

Lemma isspace_lower_char c : PyStr.isspace (PyStr.lower_char c) = PyStr.isspace c.
Proof. destruct c as [[] [] [] [] [] [] [] []]; reflexivity. Qed.

Lemma lower_lstrip s : PyStr.lower (PyStr.lstrip s) = PyStr.lstrip (PyStr.lower s).
Proof.
  induction s as [|c s IH]; simpl; [reflexivity|].
  rewrite isspace_lower_char.
  destruct (PyStr.isspace c); [exact IH | reflexivity].
Qed.

Lemma lower_rstrip s : PyStr.lower (PyStr.rstrip s) = PyStr.rstrip (PyStr.lower s).
Proof.
  induction s as [|c s IH]; simpl; [reflexivity|].
  rewrite <- IH, isspace_lower_char.
  destruct (PyStr.rstrip s) as [|c' r]; simpl.
  - destruct (PyStr.isspace c); reflexivity.
  - reflexivity.
Qed.

(** Lowering and trimming commute: no character becomes or stops being
    white space when lowered. *)
Lemma lower_strip s : PyStr.lower (PyStr.strip s) = PyStr.strip (PyStr.lower s).
Proof. unfold PyStr.strip. now rewrite lower_rstrip, lower_lstrip. Qed.

(** ** Lemmas on the dictionary *)

Lemma dict_get_set_eq k v d : Dict.get k (Dict.set k v d) = Some v.
Proof.
  induction d as [|[k' v'] d IH]; simpl.
  - now rewrite decide_True.
  - destruct (decide (k' = k)) as [->|Hne]; simpl.
    + now rewrite decide_True.
    + now rewrite decide_False.
Qed.

Lemma dict_get_set_ne k k0 v d :
  k0 <> k -> Dict.get k0 (Dict.set k v d) = Dict.get k0 d.
Proof.
  intros Hne. induction d as [|[k' v'] d IH]; simpl.
  - rewrite decide_False; [reflexivity | congruence].
  - destruct (decide (k' = k)) as [->|Hk]; simpl.
    + rewrite !decide_False; [reflexivity | congruence | congruence].
    + destruct (decide (k' = k0)); [reflexivity | exact IH].
Qed.

(** The entries under the other keys keep their values and their order. *)
Lemma dict_set_others k v d :
  filter (fun e => e.1 <> k) (Dict.set k v d) = filter (fun e => e.1 <> k) d.
Proof.
  induction d as [|[k' v'] d IH]; cbn [Dict.set].
  - rewrite filter_cons_False; [reflexivity | simpl; tauto].
  - destruct (decide (k' = k)) as [->|Hk].
    + rewrite !filter_cons_False; [reflexivity | simpl; tauto | simpl; tauto].
    + rewrite !filter_cons_True; [|assumption|assumption].
      now rewrite IH.
Qed.

Lemma dict_keys_set k v d :
  Dict.keys (Dict.set k v d)
  = if decide (k ∈ Dict.keys d) then Dict.keys d else Dict.keys d ++ [k].
Proof.
  unfold Dict.keys.
  induction d as [|[k' v'] d IH]; cbn [Dict.set map fst].
  - case_decide as H; [by apply elem_of_nil in H | done].
  - destruct (decide (k' = k)) as [->|Hk]; cbn [map fst].
    + rewrite decide_True; [done | left].
    + rewrite IH. destruct (decide (k ∈ map fst d)) as [Hin|Hin].
      * rewrite decide_True; [done | by right].
      * rewrite decide_False; [done|].
        intros [Heq|H]%elem_of_cons; [congruence | tauto].
Qed.

Lemma dict_wf_set k v d : Dict.wf d -> Dict.wf (Dict.set k v d).
Proof.
  unfold Dict.wf. intros Hwf. rewrite dict_keys_set.
  destruct (decide (k ∈ Dict.keys d)) as [Hin|Hin]; [assumption|].
  apply NoDup_app. split; [assumption|]. split.
  - intros x Hx Hx'. apply list_elem_of_singleton in Hx'. now subst.
  - apply NoDup_singleton.
Qed.

Lemma dict_wf_seed : Dict.wf seed_faq_database.
Proof. unfold Dict.wf. apply (bool_decide_unpack _). vm_compute. exact I. Qed.

(** ** Lemmas on rationals and on the score *)

Lemma Qlt_bool_iff x y : Qlt_bool x y = true <-> (x < y)%Q.
Proof.
  unfold Qlt_bool. rewrite negb_true_iff. split.
  - intros H. apply Qnot_le_lt. intros Hle.
    apply Qle_bool_iff in Hle. congruence.
  - intros H. destruct (Qle_bool y x) eqn:E; [|reflexivity].
    apply Qle_bool_iff in E. exfalso. exact (Qlt_not_le _ _ H E).
Qed.

Lemma Qlt_bool_false x y : Qlt_bool x y = false <-> (y <= x)%Q.
Proof.
  unfold Qlt_bool. rewrite negb_false_iff. apply Qle_bool_iff.
Qed.

Lemma Qdiv_nat_bounds (n d : nat) :
  (n <= d)%nat -> (1 <= d)%nat ->
  (0 <= inject_Z (Z.of_nat n) / inject_Z (Z.of_nat d) <= 1)%Q.
Proof.
  intros Hn Hd.
  assert (Hpos : (0 < inject_Z (Z.of_nat d))%Q) by (unfold Qlt; simpl; lia).
  split.
  - apply Qle_shift_div_l; [exact Hpos|].
    rewrite Qmult_0_l. unfold Qle; simpl; lia.
  - apply Qle_shift_div_r; [exact Hpos|].
    rewrite Qmult_1_l. unfold Qle; simpl; lia.
Qed.

Lemma size_list_to_set_le (l : list string) :
  (size (list_to_set l : gset string) <= length l)%nat.
Proof.
  induction l as [|x l IH]; cbn [length].
  - rewrite list_to_set_nil, size_empty. lia.
  - rewrite list_to_set_cons, size_union_alt, size_singleton.
    assert (size (list_to_set l ∖ {[x]} : gset string)
            <= size (list_to_set l : gset string))%nat
      by (apply subseteq_size, subseteq_difference_l; reflexivity).
    lia.
Qed.

Lemma overlap_le_count (k m : string) :
  (size (tokens k ∩ tokens m) <= length (PyStr.split k))%nat.
Proof.
  transitivity (size (tokens k)).
  - apply subseteq_size, intersection_subseteq_l.
  - apply size_list_to_set_le.
Qed.

(** The score of the code is the quotient by the number of key tokens. *)
Lemma score_is_score_of_count k m : score k m = score_of_count k m.
Proof. reflexivity. Qed.

(** On a key without a repeated token the two denominators agree. *)
Lemma score_of_set_NoDup k m :
  NoDup (PyStr.split k) -> score k m = score_of_set k m.
Proof.
  intros Hnd. unfold score, score_of_set, tokens.
  now rewrite (size_list_to_set (C := gset string)) by exact Hnd.
Qed.

Lemma score_bounds k m : (0 <= score k m <= 1)%Q.
Proof.
  rewrite score_is_score_of_count. unfold score_of_count.
  apply Qdiv_nat_bounds; [|lia].
  pose proof (overlap_le_count k m). lia.
Qed.

(** An empty message has no token, so every key scores [0]. *)
Lemma score_empty_message k : (score k "" == 0)%Q.
Proof.
  rewrite score_is_score_of_count. unfold score_of_count.
  replace (tokens "") with (∅ : gset string) by reflexivity.
  rewrite (right_absorb_L ∅ (∩)), size_empty.
  unfold Qdiv. apply Qmult_0_l.
Qed.

(** ** The loop of the matcher *)

(** What the pair [(best_match, best_score)] is after the loop: nothing and
    [0] when no entry is eligible; otherwise the data and the score of the
    entry at the first position where the greatest score is reached. *)
Lemma faq_loop_spec (db : Dict.t) (message : string) :
  match faq_loop db message with
  | (None, best_score) =>
      best_score = 0%Q
      /\ forall (j : nat) k d,
          db !! j = Some (k, d) -> ~ (0.3 < score k message)%Q
  | (Some best, best_score) =>
      exists (i : nat) (k : string),
        db !! i = Some (k, best)
        /\ best_score = score k message
        /\ (0.3 < best_score)%Q
        /\ (forall (j : nat) k' d',
               db !! j = Some (k', d') -> (score k' message <= best_score)%Q)
        /\ (forall (j : nat) k' d',
               (j < i)%nat -> db !! j = Some (k', d') ->
               (score k' message < best_score)%Q)
  end.
Proof.
  unfold faq_loop.
  induction db as [|[k1 d1] db IH] using rev_ind.
  - simpl. split; [reflexivity|]. intros j k d H. now rewrite lookup_nil in H.
  - rewrite fold_left_app. cbn [fold_left].
    destruct (fold_left (faq_step message) db (None, 0%Q)) as [[best|] bs];
      cbn [faq_step].
    + destruct IH as (i & k & Hi & Hbs & Hthr & Hmax & Hfirst).
      destruct (Qlt_bool bs (score k1 message) && Qlt_bool 0.3 (score k1 message))
        eqn:Hc.
      * apply andb_true_iff in Hc as [Hc1%Qlt_bool_iff Hc2%Qlt_bool_iff].
        exists (length db), k1. split; [|split; [reflexivity|split; [exact Hc2|split]]].
        -- apply lookup_snoc_Some. right. split; reflexivity.
        -- intros j k' d' [[_ Hj]|[_ Heq]]%lookup_snoc_Some.
           ++ specialize (Hmax _ _ _ Hj). lra.
           ++ inversion Heq; subst. lra.
        -- intros j k' d' Hlt [[_ Hj]|[Hj _]]%lookup_snoc_Some; [|lia].
           specialize (Hmax _ _ _ Hj). lra.
      * assert (Hle : (score k1 message <= bs)%Q).
        { apply andb_false_iff in Hc as [Hc%Qlt_bool_false|Hc%Qlt_bool_false]; lra. }
        exists i, k. split; [|split; [exact Hbs|split; [exact Hthr|split]]].
        -- apply lookup_app_l_Some, Hi.
        -- intros j k' d' [[_ Hj]|[_ Heq]]%lookup_snoc_Some.
           ++ exact (Hmax _ _ _ Hj).
           ++ inversion Heq; subst. exact Hle.
        -- intros j k' d' Hlt [[_ Hj]|[Hj _]]%lookup_snoc_Some.
           ++ exact (Hfirst _ _ _ Hlt Hj).
           ++ apply lookup_lt_Some in Hi. lia.
    + destruct IH as [-> Hnone].
      destruct (Qlt_bool 0 (score k1 message) && Qlt_bool 0.3 (score k1 message))
        eqn:Hc.
      * apply andb_true_iff in Hc as [Hc1%Qlt_bool_iff Hc2%Qlt_bool_iff].
        exists (length db), k1. split; [|split; [reflexivity|split; [exact Hc2|split]]].
        -- apply lookup_snoc_Some. right. split; reflexivity.
        -- intros j k' d' [[_ Hj]|[_ Heq]]%lookup_snoc_Some.
           ++ specialize (Hnone _ _ _ Hj). lra.
           ++ inversion Heq; subst. lra.
        -- intros j k' d' Hlt [[_ Hj]|[Hj _]]%lookup_snoc_Some; [|lia].
           specialize (Hnone _ _ _ Hj). lra.
      * split; [reflexivity|].
        intros j k d [[_ Hj]|[_ Heq]]%lookup_snoc_Some.
        -- exact (Hnone _ _ _ Hj).
        -- inversion Heq; subst.
           apply andb_false_iff in Hc as [Hc%Qlt_bool_false|Hc%Qlt_bool_false]; lra.
Qed.

(** The matcher neither raises nor logs. *)
Lemma get_faq_response_eq self message lg :
  _get_faq_response self message lg
  = (Ok (faq_reply (faq_database self) message), lg).
Proof.
  unfold _get_faq_response, faq_reply, try_except.
  destruct (faq_loop (faq_database self) message) as [[d|] bs]; reflexivity.
Qed.

(** ** How the tiers compose *)

(** The adapter never raises: it returns the model's text tagged
    ['openai'], or, after any failure inside it, its own error reply. *)
Lemma get_openai_response_total ext self message context lg :
  exists r lg',
    _get_openai_response ext self message context lg = (Ok r, lg')
    /\ (r = openai_error_response
        \/ (Response.source r = "openai" /\ Response.confidence r = 0.9%Q)).
Proof.
  unfold _get_openai_response. run_monad.
  repeat case_step; eauto 6.
Qed.

(** The three ways through [get_response]: a message that is not a string
    fails at [message.lower()] and reaches the outer handler; with a client
    and a non-empty key the adapter's reply is returned as it is; otherwise
    the matcher's reply is returned as it is. *)
Lemma get_response_cases ext self message context lg :
  match message with
  | VStr s =>
      if is_not_None (client self) && option_truthy (openai_api_key self)
      then get_response ext self message context lg
           = _get_openai_response ext self message context lg
      else get_response ext self message context lg
           = (Ok (faq_reply (faq_database self) (PyStr.strip (PyStr.lower s))), lg)
  | _ =>
      get_response ext self message context lg
      = (Ok technical_difficulties_response,
         lg ++ [Log ERROR ("Chatbot service error: "
                           +:+ exn_str (attribute_error message "lower"))])
  end.
Proof.
  unfold get_response, get_response_body.
  destruct message as [s| |]; [|reflexivity|reflexivity].
  destruct (is_not_None (client self) && option_truthy (openai_api_key self)).
  - destruct (get_openai_response_total ext self (VStr s) context lg)
      as (r & lg' & Heq & _).
    unfold try_except, bind, py_lower, ret. cbn beta iota.
    now rewrite Heq.
  - unfold try_except, bind, py_lower, ret. cbn beta iota.
    now rewrite get_faq_response_eq.
Qed.

(** The reply of the matcher is the no-match reply or an entry's answer
    weighted by a score between 0 and 1. *)
Lemma faq_reply_cases (db : Dict.t) message :
  faq_reply db message = no_match_response
  \/ exists (i : nat) k d,
      db !! i = Some (k, d)
      /\ faq_reply db message
         = Response.Make (FaqData.answer d) "faq"
                         (FaqData.confidence d * score k message).
Proof.
  unfold faq_reply. pose proof (faq_loop_spec db message) as H.
  destruct (faq_loop db message) as [[d|] bs].
  - destruct H as (i & k & Hi & -> & _). right. eauto.
  - now left.
Qed.


(** The object's key and client are those of its construction. *)
Lemma reachable_fields env_key self :
  reachable env_key self ->
  openai_api_key self = env_key /\ client self = client (__init__ env_key).
Proof.
  induction 1 as [|self question answer confidence lg self' lg' _ IH Hadd].
  - split; reflexivity.
  - unfold add_faq_entry in Hadd. revert Hadd. run_monad.
    destruct question; intros [= <-]; exact IH.
Qed.

(** The seed entries all have confidence 1. *)
Lemma seed_confidences_in_range :
  Forall (fun e => (0 <= FaqData.confidence e.2 <= 1)%Q) seed_faq_database.
Proof.
  unfold seed_faq_database.
  repeat (apply Forall_cons; split; [cbn; split; discriminate|]).
  apply Forall_nil. exact I.
Qed.

(** What [add_faq_entry] does to the object: with a string it writes one
    entry, with anything else it logs the failure and changes nothing. *)
Lemma add_faq_entry_cases self question answer confidence lg self' lg' :
  add_faq_entry self question answer confidence lg = (Ok self', lg') ->
  self' = self
  \/ exists key,
      faq_database self'
      = Dict.set key (FaqData.Make answer confidence) (faq_database self).
Proof.
  unfold add_faq_entry. run_monad.
  destruct question; intros [= <- _]; [right; eauto | left; reflexivity..].
Qed.

(** The keys of a reachable store are pairwise different. *)
Lemma reachable_wf env_key self :
  reachable env_key self -> Dict.wf (faq_database self).
Proof.
  induction 1 as [|self question answer confidence lg self' lg' _ IH Hadd].
  - exact dict_wf_seed.
  - destruct (add_faq_entry_cases _ _ _ _ _ _ _ Hadd) as [->|[key ->]].
    + exact IH.
    + now apply dict_wf_set.
Qed.

Lemma dict_set_Forall (P : string * FaqData.t -> Prop) k v d :
  (forall k', P (k', v)) -> Forall P d -> Forall P (Dict.set k v d).
Proof.
  intros Hv. induction 1 as [|[k' v'] d Hx Hd IH]; cbn [Dict.set].
  - apply Forall_cons; split; [apply Hv | apply Forall_nil; exact I].
  - destruct (decide (k' = k)); apply Forall_cons; split; auto.
Qed.

(** X21.  Adding an entry whose confidence is between 0 and 1 keeps all
    confidences of the store between 0 and 1, whatever the question is. *)
Lemma add_faq_entry_keeps_range self question answer confidence lg self' lg' :
  (0 <= confidence <= 1)%Q ->
  Forall (fun e => (0 <= FaqData.confidence e.2 <= 1)%Q) (faq_database self) ->
  add_faq_entry self question answer confidence lg = (Ok self', lg') ->
  Forall (fun e => (0 <= FaqData.confidence e.2 <= 1)%Q) (faq_database self').
Proof.
  intros Hc Hdb Hadd.
  destruct (add_faq_entry_cases _ _ _ _ _ _ _ Hadd) as [->|[key ->]].
  - exact Hdb.
  - apply dict_set_Forall; [intros k'; exact Hc | exact Hdb].
Qed.

(** ** Properties of the resolution policy *)

(** With a client and a non-empty key the FAQ tier is never consulted:
    the reply is the adapter's, whatever it is. *)
Lemma configured_returns_adapter_reply ext self s context lg :
  is_not_None (client self) && option_truthy (openai_api_key self) = true ->
  get_response ext self (VStr s) context lg
  = _get_openai_response ext self (VStr s) context lg.
Proof.
  intros Hc. pose proof (get_response_cases ext self (VStr s) context lg) as H.
  cbn beta iota in H. now rewrite Hc in H.
Qed.

(** C1, evaluated on the code.  A client is configured, the
    remote call raises and the question is one the FAQ answers in full:
    [get_response] returns the adapter's error reply, with the adapter's
    own log line and without the fall-back warning, although the matcher
    would have answered. *)
Theorem C1_adapter_failure_is_the_final_result :
  get_response ext_down (__init__ (Some "sk-test")) (VStr "what is actms") None []
  = (Ok openai_error_response,
     [Log ERROR "OpenAI API error: Connection error."])
  /\ Response.source openai_error_response = "error"
  /\ exists r,
      _get_faq_response (__init__ (Some "sk-test")) "what is actms" [] = (Ok r, [])
      /\ Response.source r = "faq"
      /\ (Response.confidence r == 1)%Q.
Proof.
  split; [reflexivity|]. split; [reflexivity|].
  rewrite get_faq_response_eq. eexists. split; [reflexivity|].
  split; vm_compute; reflexivity.
Qed.

(** No path of [get_response] returns the default reply: the matcher's
    reply is a non-empty dictionary, so the test on it always succeeds. *)
Lemma get_response_never_default ext self message context lg :
  exists r lg',
    get_response ext self message context lg = (Ok r, lg')
    /\ Response.source r <> "default".
Proof.
  pose proof (get_response_cases ext self message context lg) as H.
  destruct message as [s| |]; cbn beta iota in H;
    [|eexists _, _; split; [exact H | discriminate]..].
  destruct (is_not_None (client self) && option_truthy (openai_api_key self)).
  - destruct (get_openai_response_total ext self (VStr s) context lg)
      as (r & lg' & Heq & [->|[Hs _]]); rewrite Heq in H;
      eexists _, _; (split; [exact H|]).
    + discriminate.
    + rewrite Hs. discriminate.
  - eexists _, _. split; [exact H|].
    destruct (faq_reply_cases (faq_database self) (PyStr.strip (PyStr.lower s)))
      as [->|(i & k & d & _ & ->)]; discriminate.
Qed.

(** C2, evaluated on the code.  Without a client, a message
    that matches no entry gets the matcher's no-match reply, with source
    ['no_match'] and confidence [0.0], not the default reply. *)
Theorem C2_no_match_instead_of_default ext lg :
  get_response ext (__init__ None) (VStr "xyz") None lg
  = (Ok no_match_response, lg)
  /\ no_match_response <> default_response
  /\ Response.source no_match_response = "no_match"
  /\ (Response.confidence no_match_response == 0)%Q.
Proof.
  split; [|split; [discriminate | split; reflexivity]].
  pose proof (get_response_cases ext (__init__ None) (VStr "xyz") None lg) as H.
  cbn beta iota in H. rewrite H. reflexivity.
Qed.




(** C4 as stated fails on a key with a repeated token.  After
    [add_faq_entry("How to add a bid to a tender", "Use the bids page.",
    1.0)] the message ["add tender"] covers two of the six distinct tokens
    of that key, so the score over token sets is 1/3 and the entry is
    eligible; the code divides by the eight tokens of the key, gets 1/4 and
    answers no-match. *)
Lemma C4_counterexample :
  exists self,
    add_faq_entry (__init__ None) (VStr "How to add a bid to a tender")
                  "Use the bids page." 1.0 []
    = (Ok self, [Log INFO "FAQ entry added: how to add a bid to a tender"])
    /\ (score_of_set "how to add a bid to a tender" "add tender" == 1 # 3)%Q
    /\ (score "how to add a bid to a tender" "add tender" == 1 # 4)%Q
    /\ _get_faq_response self "add tender" [] = (Ok no_match_response, [])
    /\ ~ faq_spec score_of_set (faq_database self) "add tender"
                  no_match_response.
Proof.
  eexists. split; [reflexivity|].
  split; [vm_compute; reflexivity|].
  split; [vm_compute; reflexivity|].
  split; [rewrite get_faq_response_eq; vm_compute; reflexivity|].
  intros [(i & k & d & _ & _ & _ & _ & _ & Hsrc & _)|[Hnone _]].
  - discriminate Hsrc.
  - apply (Hnone 8%nat "how to add a bid to a tender"
             (FaqData.Make "Use the bids page." 1.0)).
    + reflexivity.
    + vm_compute. reflexivity.
Qed.

(** C4 (amended).  For every message and every store, the matcher returns
    without raising or logging, and its reply is the one described by
    [faq_spec] for the score
    [|tokens key ∩ tokens message| / max (number of tokens of key, 1)],
    the tokens of the key being counted with their repetitions in the
    denominator: an entry is eligible when its score is above 0.3; the
    entry chosen is at the first position, in insertion order, where the
    greatest score is reached; the reply carries its answer, the source
    ['faq'] and its confidence times the score; with no eligible entry
    the reply is the no-match reply. *)
Theorem C4_matcher_meets_faq_spec self message lg :
  exists r,
    _get_faq_response self message lg = (Ok r, lg)
    /\ faq_spec score_of_count (faq_database self) message r.
Proof.
  rewrite get_faq_response_eq. eexists. split; [reflexivity|].
  unfold faq_spec, faq_reply.
  pose proof (faq_loop_spec (faq_database self) message) as H.
  destruct (faq_loop (faq_database self) message) as [[d|] bs].
  - destruct H as (i & k & Hi & -> & Hthr & Hmax & Hfirst).
    left. exists i, k, d. rewrite <- !score_is_score_of_count.
    repeat split; try assumption; reflexivity.
  - destruct H as [_ Hnone]. right. split; [|reflexivity].
    intros j k d Hj. rewrite <- score_is_score_of_count. eauto.
Qed.

(** C5.  On the freshly built service, [add_faq_entry("New Question",
    "New answer", 0.8)] stores the entry under the key ["new question"],
    the lowered and trimmed question; the query ["new question"] then
    scores 1 on it, and the matcher returns the new answer with source
    ['faq'] and confidence 0.8. *)
Theorem C5_added_entry_is_matched env_key lg :
  exists self,
    add_faq_entry (__init__ env_key) (VStr "New Question") "New answer" 0.8 lg
    = (Ok self, lg ++ [Log INFO "FAQ entry added: new question"])
    /\ PyStr.strip (PyStr.lower "New Question") = "new question"
    /\ Dict.get "new question" (faq_database self)
       = Some (FaqData.Make "New answer" 0.8)
    /\ (score "new question" "new question" == 1)%Q
    /\ exists r,
        (forall lg', _get_faq_response self "new question" lg' = (Ok r, lg'))
        /\ Response.message r = "New answer"
        /\ Response.source r = "faq"
        /\ (Response.confidence r == 0.8)%Q.
Proof.
  eexists. split; [reflexivity|].
  split; [reflexivity|].
  split; [reflexivity|].
  split; [vm_compute; reflexivity|].
  eexists. split; [intros lg'; apply get_faq_response_eq|].
  cbn [faq_database].
  split; [vm_compute; reflexivity|].
  split; [vm_compute; reflexivity|].
  vm_compute. reflexivity.
Qed.

(** C6.  On every store, the matcher answers the empty message with the
    no-match reply (source ['no_match'], confidence 0.0), without raising
    or logging: every key scores 0 on it. *)
Theorem C6_empty_message_never_matches self lg :
  _get_faq_response self "" lg = (Ok no_match_response, lg)
  /\ Response.source no_match_response = "no_match"
  /\ (Response.confidence no_match_response == 0)%Q
  /\ forall k, (score k "" == 0)%Q.
Proof.
  split; [|split; [reflexivity|split; [reflexivity|apply score_empty_message]]].
  rewrite get_faq_response_eq. unfold faq_reply.
  pose proof (faq_loop_spec (faq_database self) "") as H.
  destruct (faq_loop (faq_database self) "") as [[d|] bs]; [|reflexivity].
  destruct H as (i & k & _ & -> & Hthr & _).
  rewrite score_empty_message in Hthr. discriminate Hthr.
Qed.

(** C7 as stated fails on the number: for the query ["tell me about actms
    system"] the key ['what is actms'] does not score 2/3, and the reply's
    confidence is not 2/3. *)
Lemma C7_counterexample :
  exists r,
    _get_faq_response (__init__ None) "tell me about actms system" []
    = (Ok r, [])
    /\ ~ (score "what is actms" "tell me about actms system" == 2 # 3)%Q
    /\ ~ (Response.confidence r == 2 # 3)%Q.
Proof.
  eexists. split; [apply get_faq_response_eq|].
  split; vm_compute; discriminate.
Qed.

(** C7 (amended).  Against the seed store the query ["tell me about actms
    system"] selects the entry ['what is actms'] with score 1/3 (one of the
    three key tokens, ["actms"], is in the message); 1/3 is above 0.3, so
    the entry's answer is returned with source ['faq'] and confidence 1/3,
    and the matcher neither raises nor logs. *)
Theorem C7_actms_query_scores_one_third env_key lg :
  Dict.get "what is actms" seed_faq_database = Some (FaqData.Make actms_answer 1.0)
  /\ (score "what is actms" "tell me about actms system" == 1 # 3)%Q
  /\ (0.3 < score "what is actms" "tell me about actms system")%Q
  /\ exists r,
      _get_faq_response (__init__ env_key) "tell me about actms system" lg
      = (Ok r, lg)
      /\ Response.message r = actms_answer
      /\ Response.source r = "faq"
      /\ (Response.confidence r
          == score "what is actms" "tell me about actms system")%Q
      /\ (Response.confidence r == 1 # 3)%Q.
Proof.
  split; [reflexivity|].
  split; [vm_compute; reflexivity|].
  split; [vm_compute; reflexivity|].
  eexists. split; [apply get_faq_response_eq|].
  cbn [faq_database __init__].
  repeat split; vm_compute; reflexivity.
Qed.

(** C8.  On every object reachable from [__init__ env_key],
    [is_openai_available] is [true] exactly when construction produced a
    client handle and found a credential, which happens exactly when the
    credential is a non-empty string; it is [false] when no credential was
    supplied.  It is a function of the object alone into [bool]: it has no
    log, no exception and no new state. *)
Theorem C8_is_openai_available env_key self :
  reachable env_key self ->
  (is_openai_available self = true
   <-> client (__init__ env_key) <> None /\ env_key <> None)
  /\ is_openai_available self = option_truthy env_key
  /\ (env_key = None -> is_openai_available self = false).
Proof.
  intros [Hkey Hcl]%reachable_fields.
  unfold is_openai_available. rewrite Hkey, Hcl.
  destruct env_key as [[|c k]|]; cbn; intuition congruence.
Qed.

(** C8 holds on the service built with the credential [sk-test]. *)
Lemma C8_is_openai_available_witness :
  reachable (Some "sk-test") (__init__ (Some "sk-test"))
  /\ (is_openai_available (__init__ (Some "sk-test")) = true
      <-> client (__init__ (Some "sk-test")) <> None
          /\ Some "sk-test" <> (None : option string))
  /\ is_openai_available (__init__ (Some "sk-test"))
     = option_truthy (Some "sk-test")
  /\ ((Some "sk-test" = None :> option string) ->
      is_openai_available (__init__ (Some "sk-test")) = false).
Proof.
  split; [apply reach_init|].
  apply (C8_is_openai_available (Some "sk-test") (__init__ (Some "sk-test"))).
  apply reach_init.
Defined.

(** C9.  For every message (a string or not), every context, every
    service object and every behaviour of the collaborators,
    [get_response] returns a reply and never raises; whenever its [try]
    block raises, the reply is the "technical difficulties" one, with
    source ['error'] and confidence 0.0, and the failure is logged; a
    message without a [lower] method is such a case. *)
Theorem C9_get_response_never_raises ext self message context lg :
  (exists r lg', get_response ext self message context lg = (Ok r, lg'))
  /\ match get_response_body ext self message context lg with
     | (Ok r, lg') => get_response ext self message context lg = (Ok r, lg')
     | (Raise e, lg') =>
         get_response ext self message context lg
         = (Ok technical_difficulties_response,
            lg' ++ [Log ERROR ("Chatbot service error: " +:+ exn_str e)])
     end
  /\ (exists e, get_response_body ext self VNone context lg = (Raise e, lg))
  /\ (fst (get_response ext self VNone context lg)
      = Ok technical_difficulties_response)
  /\ (forall z, fst (get_response ext self (VInt z) context lg)
                = Ok technical_difficulties_response)
  /\ Response.source technical_difficulties_response = "error"
  /\ (Response.confidence technical_difficulties_response == 0)%Q.
Proof.
  split; [|split; [|split; [|split; [|split; [|split]]]]].
  - destruct (get_response_never_default ext self message context lg)
      as (r & lg' & H & _). eauto.
  - unfold get_response, try_except.
    destruct (get_response_body ext self message context lg) as [[r|e] lg'];
      reflexivity.
  - eexists. reflexivity.
  - reflexivity.
  - reflexivity.
  - reflexivity.
  - reflexivity.
Qed.

(** C10.  For every question string, answer and confidence, in or out of
    the interval from 0 to 1, [add_faq_entry] returns normally with one
    log line; afterwards the key [lower (strip question)] holds exactly
    the given answer and the given confidence, every other key holds what
    it held, the entries under the other keys are the same in the same
    order, and the credential and the client are untouched. *)
Theorem C10_add_faq_entry_frame self question answer confidence lg :
  let key := PyStr.lower (PyStr.strip question) in
  exists self',
    add_faq_entry self (VStr question) answer confidence lg
    = (Ok self', lg ++ [Log INFO ("FAQ entry added: " +:+ key)])
    /\ Dict.get key (faq_database self')
       = Some (FaqData.Make answer confidence)
    /\ (forall k, k <> key ->
                  Dict.get k (faq_database self') = Dict.get k (faq_database self))
    /\ filter (fun e => e.1 <> key) (faq_database self')
       = filter (fun e => e.1 <> key) (faq_database self)
    /\ openai_api_key self' = openai_api_key self
    /\ client self' = client self.
Proof.
  intros key. unfold key. rewrite lower_strip.
  eexists. split; [reflexivity|]. cbn [faq_database openai_api_key client].
  split; [apply dict_get_set_eq|].
  split; [intros k Hk; now apply dict_get_set_ne|].
  split; [apply dict_set_others|].
  split; reflexivity.
Qed.

(** * Further properties of the service *)

(** ** Normalisation of questions and messages *)

Lemma lower_char_idem c : PyStr.lower_char (PyStr.lower_char c) = PyStr.lower_char c.
Proof. destruct c as [[] [] [] [] [] [] [] []]; reflexivity. Qed.

Lemma lower_idem s : PyStr.lower (PyStr.lower s) = PyStr.lower s.
Proof.
  induction s as [|c s IH]; cbn [PyStr.lower]; [reflexivity|].
  now rewrite lower_char_idem, IH.
Qed.

Lemma rstrip_idem s : PyStr.rstrip (PyStr.rstrip s) = PyStr.rstrip s.
Proof.
  induction s as [|c s IH]; cbn [PyStr.rstrip]; [reflexivity|].
  destruct (PyStr.rstrip s) as [|c' r] eqn:E.
  - destruct (PyStr.isspace c) eqn:Hc; cbn [PyStr.rstrip]; [reflexivity|].
    now rewrite Hc.
  - cbn [PyStr.rstrip] in *. now rewrite IH.
Qed.

(** A text whose first character is not white space keeps that character
    when trimmed on the right. *)
Lemma rstrip_keeps_head c s :
  PyStr.isspace c = false ->
  exists r, PyStr.rstrip (String c s) = String c r.
Proof.
  intros Hc. cbn [PyStr.rstrip]. rewrite Hc.
  destruct (PyStr.rstrip s); eauto.
Qed.

Lemma lstrip_head s :
  PyStr.lstrip s = EmptyString
  \/ exists c r, PyStr.lstrip s = String c r /\ PyStr.isspace c = false.
Proof.
  induction s as [|c s IH]; cbn [PyStr.lstrip]; [now left|].
  destruct (PyStr.isspace c) eqn:Hc; [exact IH | right; eauto].
Qed.

Lemma strip_idem s : PyStr.strip (PyStr.strip s) = PyStr.strip s.
Proof.
  unfold PyStr.strip.
  destruct (lstrip_head s) as [->|(c & r & -> & Hc)]; [reflexivity|].
  destruct (rstrip_keeps_head c r Hc) as [r' Hr].
  rewrite Hr. cbn [PyStr.lstrip]. rewrite Hc, <- Hr. apply rstrip_idem.
Qed.

(** Lowering and trimming a text that was lowered and trimmed changes
    nothing. *)
Lemma normalise_idem s :
  PyStr.strip (PyStr.lower (PyStr.strip (PyStr.lower s)))
  = PyStr.strip (PyStr.lower s).
Proof. now rewrite lower_strip, strip_idem, lower_idem. Qed.

Lemma split_from_lstrip s :
  PyStr.split_from EmptyString (PyStr.lstrip s) = PyStr.split_from EmptyString s.
Proof.
  induction s as [|c s IH]; [reflexivity|].
  cbn [PyStr.lstrip]. destruct (PyStr.isspace c) eqn:Hc; [|reflexivity].
  cbn [PyStr.split_from]. now rewrite Hc, IH.
Qed.

Lemma split_from_rstrip s :
  forall cur, PyStr.split_from cur (PyStr.rstrip s) = PyStr.split_from cur s.
Proof.
  induction s as [|c s IH]; intros cur; [reflexivity|].
  cbn [PyStr.rstrip]. destruct (PyStr.rstrip s) as [|c' r] eqn:E.
  - destruct (PyStr.isspace c) eqn:Hc; cbn [PyStr.split_from]; rewrite ?Hc.
    + rewrite <- IH. cbn [PyStr.split_from PyStr.flush]. now rewrite app_nil_r.
    + now rewrite <- IH.
  - cbn [PyStr.split_from].
    destruct (PyStr.isspace c); now rewrite <- IH.
Qed.

(** White space around a text does not change its tokens. *)
Lemma split_strip s : PyStr.split (PyStr.strip s) = PyStr.split s.
Proof.
  unfold PyStr.split, PyStr.strip.
  now rewrite split_from_rstrip, split_from_lstrip.
Qed.

(** ** Arithmetic of the score *)


Lemma Qdiv_nat_eq_iff (p : Z) (q : positive) (n d : nat) :
  (1 <= d)%nat ->
  (inject_Z (Z.of_nat n) / inject_Z (Z.of_nat d) == p # q)%Q
  <-> (Z.of_nat n * Z.pos q = p * Z.of_nat d)%Z.
Proof.
  intros Hd. destruct d as [|d]; [lia|].
  unfold Qdiv, Qinv, Qmult, Qeq, inject_Z.
  change (Z.of_nat (S d)) with (Z.pos (Pos.of_succ_nat d)).
  cbn [Qnum Qden]. rewrite Pos.mul_1_l. lia.
Qed.

Lemma Qdiv_nat_le_mono (n n' d : nat) :
  (1 <= d)%nat -> (n <= n')%nat ->
  (inject_Z (Z.of_nat n) / inject_Z (Z.of_nat d)
   <= inject_Z (Z.of_nat n') / inject_Z (Z.of_nat d))%Q.
Proof.
  intros Hd Hn. destruct d as [|d]; [lia|].
  unfold Qdiv, Qinv, Qmult, Qle, inject_Z.
  change (Z.of_nat (S d)) with (Z.pos (Pos.of_succ_nat d)).
  cbn [Qnum Qden]. rewrite Pos.mul_1_l. nia.
Qed.

(** A list has as many elements as its set only when nothing repeats. *)
Lemma size_list_to_set_NoDup (l : list string) :
  size (list_to_set l : gset string) = length l -> NoDup l.
Proof.
  induction l as [|x l IH]; cbn [length]; intros Hsz; [apply NoDup_nil; exact I|].
  rewrite list_to_set_cons in Hsz.
  pose proof (size_list_to_set_le l) as Hle.
  destruct (decide (x ∈ l)) as [Hin|Hin].
  - replace ({[x]} ∪ list_to_set l : gset string) with (list_to_set l : gset string)
      in Hsz; [lia|].
    apply set_eq. intros y. rewrite elem_of_union, elem_of_singleton, !elem_of_list_to_set.
    split; [tauto | intros [->|H]; assumption].
  - rewrite size_union, size_singleton in Hsz.
    + apply NoDup_cons. split; [exact Hin | apply IH; lia].
    + intros y Hy1 Hy2. apply elem_of_singleton in Hy1 as ->.
      now apply elem_of_list_to_set in Hy2.
Qed.


(** The full score in whole numbers: the overlap equals the number of
    tokens of the key, counted as 1 for a key without token. *)
Lemma full_score_sizes k m :
  (score k m == 1)%Q
  <-> size (tokens k ∩ tokens m) = Nat.max (length (PyStr.split k)) 1.
Proof.
  rewrite score_is_score_of_count. unfold score_of_count.
  change 1%Q with (1 # 1)%Q. rewrite Qdiv_nat_eq_iff by lia. lia.
Qed.

(** X1.  A key gets the full score 1 on a message exactly when it has at
    least one token, none of its tokens repeats, and all of them occur in
    the message. *)
Theorem score_full_iff k m :
  (score k m == 1)%Q
  <-> PyStr.split k <> [] /\ NoDup (PyStr.split k) /\ tokens k ⊆ tokens m.
Proof.
  rewrite full_score_sizes.
  pose proof (overlap_le_count k m) as Hov.
  pose proof (size_list_to_set_le (PyStr.split k)) as Hsz.
  assert (Hsub : (size (tokens k ∩ tokens m) <= size (tokens k))%nat)
    by apply subseteq_size, intersection_subseteq_l.
  fold (tokens k) in Hsz.
  split.
  - intros Heq.
    assert (Hlen : (1 <= length (PyStr.split k))%nat) by lia.
    split; [intros E; rewrite E in Hlen; cbn in Hlen; lia|].
    split; [apply size_list_to_set_NoDup; fold (tokens k); lia|].
    assert (Hset : tokens k ∩ tokens m = tokens k).
    { apply set_subseteq_size_eq; [apply intersection_subseteq_l | lia]. }
    rewrite <- Hset. apply intersection_subseteq_r.
  - intros (Hne & Hnd & Hincl).
    assert (Hset : tokens k ∩ tokens m = tokens k)
      by (apply subseteq_intersection_1_L; exact Hincl).
    rewrite Hset. unfold tokens at 1.
    rewrite (size_list_to_set (C := gset string)) by exact Hnd.
    destruct (PyStr.split k); [congruence | cbn [length]; lia].
Qed.

(** X2.  A key scores 0 on a message exactly when they share no token. *)
Theorem score_zero_iff k m :
  (score k m == 0)%Q <-> tokens k ∩ tokens m = ∅.
Proof.
  rewrite score_is_score_of_count. unfold score_of_count.
  change 0%Q with (0 # 1)%Q. rewrite Qdiv_nat_eq_iff by lia.
  rewrite <- (leibniz_equiv_iff (tokens k ∩ tokens m) ∅), <- size_empty_iff.
  lia.
Qed.

(** X3.  Words added to a message never lower the score of a key. *)
Theorem score_monotone k m m' :
  tokens m ⊆ tokens m' -> (score k m <= score k m')%Q.
Proof.
  intros Hincl. rewrite !score_is_score_of_count. unfold score_of_count.
  apply Qdiv_nat_le_mono; [lia|].
  apply subseteq_size. intros w [Hk Hm]%elem_of_intersection.
  apply elem_of_intersection. split; [exact Hk | apply Hincl, Hm].
Qed.

Lemma score_monotone_witness :
  tokens "actms" ⊆ tokens "what is actms"
  /\ (score "what is actms" "actms" <= score "what is actms" "what is actms")%Q.
Proof.
  assert (H : tokens "actms" ⊆ tokens "what is actms").
  { apply (bool_decide_unpack _). vm_compute. exact I. }
  split; [exact H | exact (score_monotone "what is actms" "actms" "what is actms" H)].
Defined.



(** ** The matcher and the store *)

(** The loop reads the message only through the scores of the keys. *)
Lemma faq_loop_ext (db : Dict.t) m m' :
  (forall k, score k m = score k m') -> faq_loop db m = faq_loop db m'.
Proof.
  intros Hsc. unfold faq_loop. generalize (@None FaqData.t, 0%Q).
  induction db as [|[k d] db IH]; intros st; cbn [fold_left]; [reflexivity|].
  rewrite IH. f_equal. destruct st as [bm bs]. cbn [faq_step].
  now rewrite Hsc.
Qed.

Lemma score_reads_tokens k m m' :
  tokens m = tokens m' -> score k m = score k m'.
Proof.
  intros H. change (score_of_count k m = score_of_count k m').
  unfold score_of_count. now rewrite H.
Qed.

(** X5.  The matcher reads the message as a set of words: two messages
    with the same words, in any order, with any repetition and any
    spacing, get the same reply. *)
Theorem matcher_reads_tokens_only self m m' lg :
  tokens m = tokens m' ->
  _get_faq_response self m lg = _get_faq_response self m' lg.
Proof.
  intros Htok. rewrite !get_faq_response_eq. unfold faq_reply.
  rewrite (faq_loop_ext (faq_database self) m m'); [reflexivity|].
  intros k. now apply score_reads_tokens.
Qed.

Lemma matcher_reads_tokens_only_witness :
  tokens "bid  submit to how  bid" = tokens "how to submit bid"
  /\ _get_faq_response (__init__ None) "bid  submit to how  bid" []
     = _get_faq_response (__init__ None) "how to submit bid" [].
Proof.
  assert (H : tokens "bid  submit to how  bid" = tokens "how to submit bid").
  { apply (bool_decide_unpack _). vm_compute. exact I. }
  split; [exact H|].
  exact (matcher_reads_tokens_only (__init__ None) _ _ [] H).
Defined.

(** X6.  An entry with the full score wins against everything stored
    after it: when the entry at position [i] scores 1 and every earlier
    entry scores less, the reply is its answer, with its confidence,
    whatever the later entries are. *)
Theorem first_full_match_wins self (i : nat) k d m lg :
  faq_database self !! i = Some (k, d) ->
  (score k m == 1)%Q ->
  (forall (j : nat) k' d',
      (j < i)%nat -> faq_database self !! j = Some (k', d') ->
      (score k' m < 1)%Q) ->
  _get_faq_response self m lg
  = (Ok (Response.Make (FaqData.answer d) "faq"
                       (FaqData.confidence d * score k m)), lg).
Proof.
  intros Hi Hfull Hbefore. rewrite get_faq_response_eq. unfold faq_reply.
  pose proof (faq_loop_spec (faq_database self) m) as H.
  destruct (faq_loop (faq_database self) m) as [[best|] bs].
  - destruct H as (i' & k0 & Hi' & -> & _ & Hmax & Hfirst).
    pose proof (Hmax _ _ _ Hi) as Hle.
    pose proof (proj2 (score_bounds k0 m)) as Hle1.
    destruct (lt_eq_lt_dec i' i) as [[Hlt|Heq]|Hgt].
    + specialize (Hbefore _ _ _ Hlt Hi'). lra.
    + subst i'. rewrite Hi in Hi'. now inversion Hi'.
    + specialize (Hfirst _ _ _ Hgt Hi). lra.
  - destruct H as [_ Hnone]. exfalso. apply (Hnone _ _ _ Hi).
    rewrite Hfull. reflexivity.
Qed.

Lemma first_full_match_wins_witness :
  exists self,
    add_faq_entry (__init__ None) (VStr "What is ACTMS exactly") "Other." 1.0 []
    = (Ok self, [Log INFO "FAQ entry added: what is actms exactly"])
    /\ (score "what is actms exactly" "what is actms exactly" == 1)%Q
    /\ _get_faq_response self "what is actms exactly" []
       = (Ok (Response.Make actms_answer "faq"
                (1.0 * score "what is actms" "what is actms exactly")), []).
Proof.
  eexists. split; [reflexivity|]. split; [vm_compute; reflexivity|].
  apply (first_full_match_wins _ 0%nat "what is actms"
           (FaqData.Make actms_answer 1.0)).
  - reflexivity.
  - vm_compute. reflexivity.
  - intros j k' d' Hj. lia.
Defined.

Section AddThenMatch.

Variables (m k : string) (v : FaqData.t).

(** Two states of the loop agree up to the rewritten entry: same best
    score, and the same best entry unless the second holds [v], selected
    with the score of [k]. *)
Lemma faq_step_agree st st' item :
  snd st' = snd st
  /\ (fst st' = fst st \/ (fst st' = Some v /\ snd st' = score k m)) ->
  snd (faq_step m st' item) = snd (faq_step m st item)
  /\ (fst (faq_step m st' item) = fst (faq_step m st item)
      \/ (fst (faq_step m st' item) = Some v
          /\ snd (faq_step m st' item) = score k m)).
Proof.
  destruct st as [bm bs], st' as [bm' bs'], item as [k2 d2].
  cbn [fst snd faq_step]. intros [-> Hfst].
  destruct (Qlt_bool bs (score k2 m) && Qlt_bool 0.3 (score k2 m));
    cbn [fst snd]; auto.
Qed.

Lemma faq_fold_agree (db : Dict.t) : forall st st',
  snd st' = snd st
  /\ (fst st' = fst st \/ (fst st' = Some v /\ snd st' = score k m)) ->
  let f := fold_left (faq_step m) db st in
  let f' := fold_left (faq_step m) db st' in
  snd f' = snd f
  /\ (fst f' = fst f \/ (fst f' = Some v /\ snd f' = score k m)).
Proof.
  induction db as [|item db IH]; intros st st' H; cbn [fold_left]; [exact H|].
  apply IH, faq_step_agree, H.
Qed.

(** The loop over the store after [db[k] = v], against the loop over the
    store before: the same result, or [v] with the score of [k]. *)
Lemma faq_fold_set (db : Dict.t) : forall st st',
  snd st' = snd st
  /\ (fst st' = fst st \/ (fst st' = Some v /\ snd st' = score k m)) ->
  let f := fold_left (faq_step m) db st in
  let f' := fold_left (faq_step m) (Dict.set k v db) st' in
  f' = f \/ (fst f' = Some v /\ snd f' = score k m).
Proof.
  induction db as [|[k2 d2] db IH]; intros st st' H; cbn [Dict.set fold_left].
  - destruct st as [bm bs], st' as [bm' bs']. cbn [fst snd faq_step] in *.
    destruct H as [-> Hfst].
    destruct (Qlt_bool bs (score k m) && Qlt_bool 0.3 (score k m)).
    + right. split; reflexivity.
    + destruct Hfst as [->|[-> ->]]; [left; reflexivity | right; split; reflexivity].
  - destruct (decide (k2 = k)) as [->|Hne]; cbn [fold_left].
    + assert (Hag :
        snd (faq_step m st' (k, v)) = snd (faq_step m st (k, d2))
        /\ (fst (faq_step m st' (k, v)) = fst (faq_step m st (k, d2))
            \/ (fst (faq_step m st' (k, v)) = Some v
                /\ snd (faq_step m st' (k, v)) = score k m))).
      { destruct st as [bm bs], st' as [bm' bs']. cbn [fst snd faq_step] in *.
        destruct H as [-> Hfst].
        destruct (Qlt_bool bs (score k m) && Qlt_bool 0.3 (score k m));
          cbn [fst snd]; auto. }
      pose proof (faq_fold_agree db _ _ Hag) as [Hs Hf]. cbn zeta in Hs, Hf.
      destruct Hf as [Hf|Hf]; [left | right; exact Hf].
      destruct (fold_left (faq_step m) db (faq_step m st' (k, v))),
               (fold_left (faq_step m) db (faq_step m st (k, d2))).
      cbn [fst snd] in *. congruence.
    + apply IH, faq_step_agree, H.
Qed.

End AddThenMatch.

(** X7.  Adding an entry changes the reply to a message in one way only:
    after [add_faq_entry] the matcher gives the reply it gave before, or
    the new answer with the new confidence times the score of the new
    key. *)
Theorem add_faq_entry_reply_frame self question answer confidence m lg lg1 :
  exists self' lg',
    add_faq_entry self (VStr question) answer confidence lg = (Ok self', lg')
    /\ (_get_faq_response self' m lg1 = _get_faq_response self m lg1
        \/ _get_faq_response self' m lg1
           = (Ok (Response.Make answer "faq"
                    (confidence
                     * score (PyStr.strip (PyStr.lower question)) m)), lg1)).
Proof.
  eexists _, _. split; [reflexivity|].
  rewrite !get_faq_response_eq. unfold faq_reply, faq_loop.
  cbn [faq_database].
  pose proof (faq_fold_set m (PyStr.strip (PyStr.lower question))
                (FaqData.Make answer confidence) (faq_database self)
                (None, 0%Q) (None, 0%Q)) as H.
  cbn zeta in H. destruct H as [->|[Hf Hs]]; [auto | now left |].
  destruct (fold_left _ (Dict.set _ _ _) _) as [bm bs].
  cbn [fst snd] in Hf, Hs. subst. right. reflexivity.
Qed.

Lemma dict_set_set k v1 v2 d :
  Dict.set k v2 (Dict.set k v1 d) = Dict.set k v2 d.
Proof.
  induction d as [|[k' v'] d IH]; cbn [Dict.set].
  - now rewrite decide_True.
  - destruct (decide (k' = k)) as [->|Hne]; cbn [Dict.set].
    + now rewrite decide_True.
    + rewrite decide_False by exact Hne. now rewrite IH.
Qed.

(** X8.  The last write wins, and questions are told apart only up to
    case and surrounding white space: adding under a question and then
    under a question with the same lowered, trimmed text leaves the store
    that the second call alone would leave, the entry in the same
    position. *)
Theorem add_faq_entry_last_write_wins self q1 a1 c1 q2 a2 c2 lg lg' :
  PyStr.strip (PyStr.lower q1) = PyStr.strip (PyStr.lower q2) ->
  exists s1 s12 s2 l1 l12 l2,
    add_faq_entry self (VStr q1) a1 c1 lg = (Ok s1, l1)
    /\ add_faq_entry s1 (VStr q2) a2 c2 l1 = (Ok s12, l12)
    /\ add_faq_entry self (VStr q2) a2 c2 lg' = (Ok s2, l2)
    /\ s12 = s2.
Proof.
  intros Hkey. eexists _, _, _, _, _, _.
  split; [reflexivity|]. split; [reflexivity|]. split; [reflexivity|].
  cbn [faq_database openai_api_key client].
  now rewrite Hkey, dict_set_set.
Qed.

Lemma add_faq_entry_last_write_wins_witness :
  PyStr.strip (PyStr.lower "  What is ACTMS ")
  = PyStr.strip (PyStr.lower "what is actms")
  /\ exists s1 s12 s2 l1 l12 l2,
      add_faq_entry (__init__ None) (VStr "  What is ACTMS ") "One." 0.5 []
      = (Ok s1, l1)
      /\ add_faq_entry s1 (VStr "what is actms") "Two." 0.7 l1 = (Ok s12, l12)
      /\ add_faq_entry (__init__ None) (VStr "what is actms") "Two." 0.7 []
         = (Ok s2, l2)
      /\ s12 = s2.
Proof.
  split; [reflexivity|].
  exact (add_faq_entry_last_write_wins (__init__ None)
           "  What is ACTMS " "One." 0.5%Q "what is actms" "Two." 0.7%Q [] []
           eq_refl).
Defined.

(** X9.  Entries are never removed and never move: on every object
    reachable through the public operations the eight seed keys are the
    first eight keys of the store, in the seed order. *)
Theorem seed_keys_stay_first env_key self :
  reachable env_key self ->
  Dict.keys seed_faq_database `prefix_of` Dict.keys (faq_database self).
Proof.
  induction 1 as [|self question answer confidence lg self' lg' _ IH Hadd].
  - reflexivity.
  - destruct (add_faq_entry_cases _ _ _ _ _ _ _ Hadd) as [->|[key ->]];
      [exact IH|].
    rewrite dict_keys_set. case_decide; [exact IH|].
    now apply prefix_app_r.
Qed.

Lemma seed_keys_stay_first_witness :
  exists self,
    reachable None self
    /\ Dict.get "how to submit bid" (faq_database self)
       = Some (FaqData.Make "Ask the desk." 0.5)
    /\ Dict.keys seed_faq_database `prefix_of` Dict.keys (faq_database self).
Proof.
  eexists. split; [|split].
  - eapply (reach_add None (__init__ None) (VStr "How to submit BID")
              "Ask the desk." 0.5%Q []); [apply reach_init | reflexivity].
  - reflexivity.
  - eapply seed_keys_stay_first.
    eapply (reach_add None (__init__ None) (VStr "How to submit BID")
              "Ask the desk." 0.5%Q []); [apply reach_init | reflexivity].
Defined.

(** X10.  Every key of a reachable store is in normal form: lowering and
    trimming it gives the key back. *)
Theorem reachable_keys_are_normalised env_key self :
  reachable env_key self ->
  Forall (fun k => PyStr.strip (PyStr.lower k) = k)
         (Dict.keys (faq_database self)).
Proof.
  induction 1 as [|self question answer confidence lg self' lg' _ IH Hadd].
  - cbn. repeat (apply Forall_cons; split; [reflexivity|]).
    apply Forall_nil. exact I.
  - revert Hadd. unfold add_faq_entry. run_monad.
    destruct question as [q| |]; intros [= <- _]; [|exact IH..].
    cbn [faq_database]. rewrite dict_keys_set. case_decide; [exact IH|].
    apply Forall_app. split; [exact IH|].
    apply Forall_cons. split; [apply normalise_idem | apply Forall_nil; exact I].
Qed.

Lemma reachable_keys_are_normalised_witness :
  exists self,
    reachable None self
    /\ Dict.keys (faq_database self)
       = Dict.keys seed_faq_database ++ ["new  question"]
    /\ Forall (fun k => PyStr.strip (PyStr.lower k) = k)
              (Dict.keys (faq_database self)).
Proof.
  eexists. split; [|split].
  - eapply (reach_add None (__init__ None) (VStr "  New  QUESTION ")
              "New answer" 0.8%Q []); [apply reach_init | reflexivity].
  - reflexivity.
  - eapply reachable_keys_are_normalised.
    eapply (reach_add None (__init__ None) (VStr "  New  QUESTION ")
              "New answer" 0.8%Q []); [apply reach_init | reflexivity].
Defined.

(** X11.  [add_faq_entry] never raises.  With a question that is not a
    string it leaves the object as it is and logs the failure of
    [question.lower()] at level ERROR. *)
Theorem add_faq_entry_never_raises self question answer confidence lg :
  (exists self' lg',
      add_faq_entry self question answer confidence lg = (Ok self', lg'))
  /\ match question with
     | VStr _ => True
     | _ =>
         add_faq_entry self question answer confidence lg
         = (Ok self,
            lg ++ [Log ERROR ("FAQ entry addition error: '"
                              +:+ type_name question
                              +:+ "' object has no attribute 'lower'")])
     end.
Proof.
  destruct question; (split; [eexists _, _; reflexivity|]);
    [exact I | reflexivity | reflexivity].
Qed.

(** ** The tiers of [get_response] *)

(** The adapter logs exactly when it fails. *)
Lemma get_openai_response_log ext self message context lg :
  exists r lg',
    _get_openai_response ext self message context lg = (Ok r, lg')
    /\ ((Response.source r = "openai" /\ lg' = lg)
        \/ (r = openai_error_response
            /\ exists e,
                lg' = lg ++ [Log ERROR ("OpenAI API error: " +:+ exn_str e)])).
Proof.
  unfold _get_openai_response, py_index. run_monad.
  repeat case_step; (eexists _, _; split; [reflexivity|]);
    first [ left; split; reflexivity
          | right; split; [reflexivity|]; eexists; reflexivity ].
Qed.

Lemma tokens_strip s : tokens (PyStr.strip s) = tokens s.
Proof. unfold tokens. now rewrite split_strip. Qed.

(** X12.  On every object reachable through the public operations,
    [get_response] on a string takes the model tier exactly when
    [is_openai_available] holds: its result is then the adapter's result,
    and otherwise the matcher's result on the lowered, trimmed message. *)
Theorem get_response_follows_availability env_key ext self s context lg :
  reachable env_key self ->
  get_response ext self (VStr s) context lg
  = if is_openai_available self
    then _get_openai_response ext self (VStr s) context lg
    else _get_faq_response self (PyStr.strip (PyStr.lower s)) lg.
Proof.
  intros [Hkey Hcl]%reachable_fields.
  pose proof (get_response_cases ext self (VStr s) context lg) as H.
  cbn beta iota in H. rewrite get_faq_response_eq.
  unfold is_openai_available. rewrite Hkey, Hcl in *.
  destruct env_key as [[|c k]|]; exact H.
Qed.

Lemma get_response_follows_availability_witness :
  reachable (Some "sk-test") (__init__ (Some "sk-test"))
  /\ get_response ext_up (__init__ (Some "sk-test")) (VStr "hello") None []
     = if is_openai_available (__init__ (Some "sk-test"))
       then _get_openai_response ext_up (__init__ (Some "sk-test"))
              (VStr "hello") None []
       else _get_faq_response (__init__ (Some "sk-test"))
              (PyStr.strip (PyStr.lower "hello")) [].
Proof.
  split; [apply reach_init|].
  apply (get_response_follows_availability (Some "sk-test")). apply reach_init.
Defined.

(** X13.  Without a usable client, [get_response] reads a message as the
    set of its lowered words: two strings with the same lowered words get
    the same result, whatever the context and the collaborators, and
    nothing is logged. *)
Theorem faq_tier_reads_lowered_words ext ext' self s s' context context' lg :
  is_not_None (client self) && option_truthy (openai_api_key self) = false ->
  tokens (PyStr.lower s) = tokens (PyStr.lower s') ->
  get_response ext self (VStr s) context lg
  = get_response ext' self (VStr s') context' lg
  /\ snd (get_response ext self (VStr s) context lg) = lg.
Proof.
  intros Hgate Htok.
  pose proof (get_response_cases ext self (VStr s) context lg) as H.
  pose proof (get_response_cases ext' self (VStr s') context' lg) as H'.
  cbn beta iota in H, H'. rewrite Hgate in H, H'. rewrite H, H'.
  split; [|reflexivity]. do 2 f_equal. unfold faq_reply.
  rewrite (faq_loop_ext (faq_database self)
             (PyStr.strip (PyStr.lower s)) (PyStr.strip (PyStr.lower s')));
    [reflexivity|].
  intros k. apply score_reads_tokens. now rewrite !tokens_strip.
Qed.

Lemma faq_tier_reads_lowered_words_witness :
  is_not_None (client (__init__ None))
  && option_truthy (openai_api_key (__init__ None)) = false
  /\ tokens (PyStr.lower "  ACTMS is   WHAT? what ")
     = tokens (PyStr.lower "what? is actms what")
  /\ get_response ext_down (__init__ None) (VStr "  ACTMS is   WHAT? what ") None []
     = get_response ext_up (__init__ None) (VStr "what? is actms what")
         (Some []) []
  /\ snd (get_response ext_down (__init__ None)
            (VStr "  ACTMS is   WHAT? what ") None []) = [].
Proof.
  assert (H : tokens (PyStr.lower "  ACTMS is   WHAT? what ")
              = tokens (PyStr.lower "what? is actms what")).
  { apply (bool_decide_unpack _). vm_compute. exact I. }
  split; [reflexivity|]. split; [exact H|].
  exact (faq_tier_reads_lowered_words ext_down ext_up (__init__ None)
           _ _ None (Some []) [] eq_refl H).
Defined.

(** X14.  [get_response] logs exactly when it answers with source
    ['error']: such a reply comes with one new record at level ERROR, and
    every other reply leaves the log as it was.  No record at level
    WARNING is ever written. *)
Theorem get_response_logs_iff_error ext self message context lg :
  exists r lg',
    get_response ext self message context lg = (Ok r, lg')
    /\ ((Response.source r = "error"
         /\ exists text, lg' = lg ++ [Log ERROR text])
        \/ (Response.source r <> "error" /\ lg' = lg)).
Proof.
  pose proof (get_response_cases ext self message context lg) as H.
  destruct message as [s| |]; cbn beta iota in H;
    [|eexists _, _; split; [exact H|]; left; split; [reflexivity | eauto]..].
  destruct (is_not_None (client self) && option_truthy (openai_api_key self)).
  - destruct (get_openai_response_log ext self (VStr s) context lg)
      as (r & lg' & Heq & [[Hs ->]|[-> [e ->]]]); rewrite Heq in H;
      eexists _, _; (split; [exact H|]).
    + right. rewrite Hs. split; [discriminate | reflexivity].
    + left. split; [reflexivity | eauto].
  - eexists _, _. split; [exact H|]. right. split; [|reflexivity].
    destruct (faq_reply_cases (faq_database self) (PyStr.strip (PyStr.lower s)))
      as [->|(i & k & d & _ & ->)]; discriminate.
Qed.

(** X15.  With a client and a non-empty key the store plays no part:
    two objects with the same client and key give the same result on
    every string, whatever their FAQ entries. *)
Theorem configured_reply_ignores_store ext self self' s context lg :
  is_not_None (client self) && option_truthy (openai_api_key self) = true ->
  client self' = client self ->
  openai_api_key self' = openai_api_key self ->
  get_response ext self' (VStr s) context lg
  = get_response ext self (VStr s) context lg.
Proof.
  intros Hgate Hcl Hkey.
  rewrite !configured_returns_adapter_reply
    by (rewrite ?Hcl, ?Hkey; exact Hgate).
  unfold _get_openai_response. now rewrite Hcl.
Qed.

Lemma configured_reply_ignores_store_witness :
  exists self',
    add_faq_entry (__init__ (Some "sk-test")) (VStr "hello") "Hi." 1.0 []
    = (Ok self', [Log INFO "FAQ entry added: hello"])
    /\ get_response ext_down self' (VStr "hello") None []
       = get_response ext_down (__init__ (Some "sk-test")) (VStr "hello") None [].
Proof.
  eexists. split; [reflexivity|].
  apply configured_reply_ignores_store; reflexivity.
Defined.

(** ** The adapter *)

(** X16.  What the adapter sends and what it makes of the answer.  With a
    client, and a context that serialises (or none), the remote call gets
    the model [gpt-4], at most 300 tokens, temperature 0.7, and the
    messages in this order: the system prompt, then the context as a
    second system message when there is one, then the user's message.
    Only the first choice is read: its text is returned trimmed, a [None]
    text is replaced by the apology, no choice at all or a failing call
    gives the error reply and one ERROR record. *)
Theorem adapter_request_and_reply ext self cl message context dumped lg :
  client self = Some cl ->
  match context with
  | Some ctx => json_dumps ext ctx = Ok dumped
  | None => True
  end ->
  let context_messages :=
    match context with
    | Some _ =>
        [ {| role := "system";
             content := VStr ("Additional context: " +:+ dumped) |} ]
    | None => []
    end in
  let request :=
    {| model := "gpt-4";
       messages :=
         {| role := "system"; content := VStr system_prompt |}
         :: context_messages ++ [ {| role := "user"; content := message |} ];
       max_tokens := 300;
       temperature := 0.7 |} in
  _get_openai_response ext self message context lg
  = match chat_completions_create ext cl request with
    | Ok (Some text :: _) =>
        (Ok (Response.Make (PyStr.strip text) "openai" 0.9), lg)
    | Ok (None :: _) =>
        (Ok (Response.Make
               "I apologize, but I couldn't generate a response. Please try again."
               "openai" 0.9), lg)
    | Ok [] =>
        (Ok openai_error_response,
         lg ++ [Log ERROR "OpenAI API error: list index out of range"])
    | Raise e =>
        (Ok openai_error_response,
         lg ++ [Log ERROR ("OpenAI API error: " +:+ exn_str e)])
    end.
Proof.
  intros Hcl Hdump context_messages request.
  unfold _get_openai_response, py_index. run_monad. rewrite Hcl.
  destruct context as [ctx|]; [rewrite Hdump|]; cbn beta iota;
    (match goal with
     | |- context [chat_completions_create ext cl ?r] =>
         lazymatch r with
         | request => fail
         | _ => change r with request
         end
     end;
     destruct (chat_completions_create ext cl request) as [[|[text|] rest]|e];
     reflexivity).
Qed.

Lemma adapter_request_and_reply_witness :
  client (__init__ (Some "sk-test")) = Some {| api_key := "sk-test" |}
  /\ json_dumps ext_up [("total_tenders", VInt 3)] = Ok "{}"
  /\ _get_openai_response ext_up (__init__ (Some "sk-test")) (VStr "hello")
       (Some [("total_tenders", VInt 3)]) []
     = (Ok (Response.Make "Hello!" "openai" 0.9), []).
Proof.
  split; [reflexivity|]. split; [reflexivity|].
  exact (adapter_request_and_reply ext_up (__init__ (Some "sk-test"))
           {| api_key := "sk-test" |} (VStr "hello")
           (Some [("total_tenders", VInt 3)]) "{}" [] eq_refl eq_refl).
Defined.




(** X18.  A context that [json.dumps] cannot serialise stops the adapter
    before any remote call: whatever the client and the remote service,
    the reply is the adapter's error reply and the failure of
    [json.dumps] is logged. *)
Theorem adapter_unserialisable_context ext self message ctx e lg :
  json_dumps ext ctx = Raise e ->
  (forall remote,
      _get_openai_response
        {| json_dumps := json_dumps ext; chat_completions_create := remote |}
        self message (Some ctx) lg
      = (Ok openai_error_response,
         lg ++ [Log ERROR ("OpenAI API error: " +:+ exn_str e)])).
Proof.
  intros Hdump remote. unfold _get_openai_response. run_monad.
  cbn [json_dumps]. now rewrite Hdump.
Qed.

Lemma adapter_unserialisable_context_witness :
  _get_openai_response
    {| json_dumps :=
         fun _ => Raise (Exn "TypeError" "Object of type set is not JSON serializable");
       chat_completions_create := chat_completions_create ext_up |}
    (__init__ (Some "sk-test")) (VStr "hello") (Some []) []
  = (Ok openai_error_response,
     [Log ERROR "OpenAI API error: Object of type set is not JSON serializable"]).
Proof.
  exact (adapter_unserialisable_context
           {| json_dumps :=
                fun _ => Raise (Exn "TypeError"
                                  "Object of type set is not JSON serializable");
              chat_completions_create := chat_completions_create ext_down |}
           (__init__ (Some "sk-test")) (VStr "hello") []
           (Exn "TypeError" "Object of type set is not JSON serializable") []
           eq_refl (chat_completions_create ext_up)).
Defined.

(** ** The context helper *)


(** X20.  When the database service answers all four queries, the helper
    forwards the three counts as they are and reports as recent_alerts the
    length of the list that [get_recent_alerts(limit=5)] returned, without
    capping it; the user id plays no part. *)
Theorem get_conversation_context_forwards_counts
    db self user_id lg tenders bids flags alerts :
  count_tenders db = Ok tenders ->
  count_active_bids db = Ok bids ->
  count_suspicious_bids db = Ok flags ->
  get_recent_alerts db 5 = Ok alerts ->
  get_conversation_context (Ok db) self user_id lg
  = (Ok [ ("total_tenders", tenders);
          ("active_bids", bids);
          ("suspicious_flags", flags);
          ("recent_alerts", VInt (Z.of_nat (length alerts))) ], lg).
Proof.
  intros H1 H2 H3 H4. unfold get_conversation_context. run_monad.
  now rewrite H1, H2, H3, H4.
Qed.

Lemma get_conversation_context_forwards_counts_witness :
  get_conversation_context
    (Ok {| count_tenders := Ok (VInt 12);
           count_active_bids := Ok (VInt 40);
           count_suspicious_bids := Ok (VInt 2);
           get_recent_alerts :=
             fun limit => Ok (repeat VNone (Z.to_nat limit + 2)) |})
    (__init__ None) (Some "user-7") []
  = (Ok [ ("total_tenders", VInt 12);
          ("active_bids", VInt 40);
          ("suspicious_flags", VInt 2);
          ("recent_alerts", VInt 7) ], []).
Proof.
  exact (get_conversation_context_forwards_counts
           {| count_tenders := Ok (VInt 12);
              count_active_bids := Ok (VInt 40);
              count_suspicious_bids := Ok (VInt 2);
              get_recent_alerts :=
                fun limit => Ok (repeat VNone (Z.to_nat limit + 2)) |}
           (__init__ None) (Some "user-7") []
           (VInt 12) (VInt 40) (VInt 2) (repeat VNone 7)
           eq_refl eq_refl eq_refl eq_refl).
Defined.

(** X21 holds for an entry added to the seed store with confidence 0.8. *)
Lemma add_faq_entry_keeps_range_witness :
  exists self',
    add_faq_entry (__init__ None) (VStr "New Question") "New answer" 0.8 []
    = (Ok self', [Log INFO "FAQ entry added: new question"])
    /\ Forall (fun e => (0 <= FaqData.confidence e.2 <= 1)%Q)
              (faq_database self').
Proof.
  eexists. split; [reflexivity|].
  eapply (add_faq_entry_keeps_range (__init__ None) (VStr "New Question")
            "New answer" 0.8%Q []).
  - split; discriminate.
  - exact seed_confidences_in_range.
  - reflexivity.
Defined.

(** ** Asking a stored question *)

(** X22.  A stored key without repeated words, put to the matcher as the
    message, is always answered from the store with the full score: the
    reply is the answer of that entry or of an earlier entry all of whose
    words occur in the key, and its confidence is that entry's
    confidence. *)
Theorem stored_question_is_answered self (i : nat) k d lg :
  faq_database self !! i = Some (k, d) ->
  PyStr.split k <> [] ->
  NoDup (PyStr.split k) ->
  exists (j : nat) k' d' r,
    (j <= i)%nat
    /\ faq_database self !! j = Some (k', d')
    /\ tokens k' ⊆ tokens k
    /\ _get_faq_response self k lg = (Ok r, lg)
    /\ Response.message r = FaqData.answer d'
    /\ Response.source r = "faq"
    /\ (Response.confidence r == FaqData.confidence d')%Q.
Proof.
  intros Hi Hne Hnd.
  assert (Hfull : (score k k == 1)%Q).
  { apply full_score_sizes.
    replace (tokens k ∩ tokens k) with (tokens k)
      by (symmetry; apply subseteq_intersection_1_L; reflexivity).
    unfold tokens. rewrite (size_list_to_set (C := gset string)) by exact Hnd.
    destruct (PyStr.split k); [congruence | cbn [length]; lia]. }
  rewrite get_faq_response_eq. unfold faq_reply.
  pose proof (faq_loop_spec (faq_database self) k) as H.
  destruct (faq_loop (faq_database self) k) as [[best|] bs].
  - destruct H as (j & k' & Hj & -> & _ & Hmax & Hfirst).
    pose proof (Hmax _ _ _ Hi) as Hle.
    pose proof (proj2 (score_bounds k' k)) as Hle1.
    assert (Hbest : (score k' k == 1)%Q) by lra.
    exists j, k', best. eexists. split; [|split; [exact Hj|split; [|split]]].
    + destruct (le_lt_dec j i) as [Hji|Hij]; [exact Hji|].
      specialize (Hfirst _ _ _ Hij Hi). lra.
    + apply full_score_sizes in Hbest.
      pose proof (size_list_to_set_le (PyStr.split k')) as Hsz.
      fold (tokens k') in Hsz.
      assert (Hset : tokens k' ∩ tokens k = tokens k').
      { apply set_subseteq_size_eq; [apply intersection_subseteq_l | lia]. }
      rewrite <- Hset. apply intersection_subseteq_r.
    + reflexivity.
    + cbn [Response.message Response.source Response.confidence].
      split; [reflexivity|]. split; [reflexivity|].
      rewrite Hbest. apply Qmult_1_r.
  - destruct H as [_ Hnone]. exfalso. apply (Hnone _ _ _ Hi).
    rewrite Hfull. reflexivity.
Qed.

Lemma stored_question_is_answered_witness :
  seed_faq_database !! 2%nat
  = Some ("what is suspicious bid",
          FaqData.Make "A suspicious bid is one flagged by our AI system for unusual patterns like extremely low amounts, poor proposal quality, or suspicious timing." 1.0)
  /\ exists (j : nat) k' d' r,
      (j <= 2)%nat
      /\ seed_faq_database !! j = Some (k', d')
      /\ tokens k' ⊆ tokens "what is suspicious bid"
      /\ _get_faq_response (__init__ None) "what is suspicious bid" []
         = (Ok r, [])
      /\ Response.message r = FaqData.answer d'
      /\ Response.source r = "faq"
      /\ (Response.confidence r == FaqData.confidence d')%Q.
Proof.
  split; [reflexivity|].
  apply (stored_question_is_answered (__init__ None) 2%nat
           "what is suspicious bid" _ [] eq_refl).
  - discriminate.
  - apply (bool_decide_unpack _). vm_compute. exact I.
Defined.

(** X23.  On every object reachable through the public operations the
    client handle, when there is one, was built from the stored key, and
    that key is not empty; without a handle the stored key is absent or
    empty. *)
Theorem client_matches_key env_key self :
  reachable env_key self ->
  match client self with
  | Some cl =>
      openai_api_key self = Some (api_key cl) /\ api_key cl <> EmptyString
  | None =>
      openai_api_key self = None \/ openai_api_key self = Some EmptyString
  end.
Proof.
  intros [Hkey Hcl]%reachable_fields. rewrite Hkey, Hcl.
  destruct env_key as [[|c k]|]; cbn; auto.
Qed.

Lemma client_matches_key_witness :
  reachable (Some "") (__init__ (Some ""))
  /\ client (__init__ (Some "")) = None
  /\ match client (__init__ (Some "")) with
     | Some cl =>
         openai_api_key (__init__ (Some "")) = Some (api_key cl)
         /\ api_key cl <> EmptyString
     | None =>
         openai_api_key (__init__ (Some "")) = None
         \/ openai_api_key (__init__ (Some "")) = Some EmptyString
     end.
Proof.
  split; [apply reach_init|]. split; [reflexivity|].
  apply (client_matches_key (Some "")). apply reach_init.
Defined.
